(** * sshkeycheck: the key-harvesting server of [server.go]

    A shallow embedding of [server.go]: the session registry and the two
    authentication callbacks, the per-channel request listener with its
    timer and mutex, the key audit loop and the report written to the
    channel, and [serve] which ties them together.

    Goroutines are modelled by interleaving: a channel comes with a
    schedule, the order in which the listener receives requests, the timer
    fires and the reporting goroutine tries to take [reqLock].  The mutex
    [sessions.mu] only makes each registry access atomic, which a sequential
    model gives for free, so it does not appear. *)

From Stdlib Require Import ZArith Ascii String.
From stdpp Require Import gmap strings list pretty.

Local Open Scope Z_scope.

(** ** Go values used by the server *)

(** An [error] is modelled by its message; [None] is Go's [nil]. *)
Definition error := string.

Module errors.
Definition New (text : string) : error := text.
End errors.

Module ssh.
Definition KeyAlgoRSA : string := "ssh-rsa".
Definition KeyAlgoDSA : string := "ssh-dss".

(** The interface [ssh.PublicKey]: [Type()] and [Marshal()]. *)
Record PublicKey := { KeyType : string; Marshal : string }.

(** [*ssh.Permissions]; the server never builds one. *)
Record Permissions :=
  { CriticalOptions : list (string * string); Extensions : list (string * string) }.

(** [ssh.ConnMetadata], of which the server reads [SessionID()] only. *)
Record ConnMetadata := { User : string; SessionID : string }.

(** One question put to the user through [ssh.KeyboardInteractiveChallenge]. *)
Record Challenge :=
  { instruction : string; questions : list string; echos : list bool }.

(** [*ssh.Request] of a channel. *)
Record Request := { ReqType : string; WantReply : bool }.

Inductive RejectionReason := Prohibited | ConnectionFailed | UnknownChannelType | ResourceShortage.
End ssh.

Definition TAB : string := String (ascii_of_nat 9) "".
Definition LF : string := String (ascii_of_nat 10) "".
Definition CR : string := String (ascii_of_nat 13) "".

(** [strings.Replace(s, old, new, -1)] for a non-empty [old]: every
    non-overlapping occurrence, from the left.  [skip] counts the bytes of
    an occurrence that has been replaced and is still to be dropped. *)
Fixpoint Replace_go (skip : nat) (s old new : string) : string :=
  match s with
  | EmptyString => EmptyString
  | String c s' =>
      match skip with
      | S n => Replace_go n s' old new
      | O =>
          if String.prefix old s
          then new +:+ Replace_go (String.length old - 1) s' old new
          else String c (Replace_go 0 s' old new)
      end
  end.

Definition Replace (s old new : string) : string := Replace_go 0 s old new.

(** The verb [%d] of [fmt] on an [int]. *)
Definition fmt_d (n : Z) : string := pretty n.

(** ** Key records and the collaborators that are not in [server.go] *)

Record publicKey := { key : ssh.PublicKey; blacklisted : bool }.

(** The methods of [*publicKey] and the library calls that [serve] makes
    but that live outside [server.go].  [BitLen] returns Go's pair
    [(int, error)]; [tabwriter_Flush] maps the bytes written to the
    [tabwriter.Writer] to what it has put into [table] after [Flush]. *)
Class Externals := {
  BitLen : publicKey -> Z * option error;
  Fingerprint : publicKey -> string;
  isBlacklisted : ssh.PublicKey -> bool;
  tabwriter_Flush : string -> string
}.

(** Modelled from the spec: [markBlacklistedKeys] is missing from the
    sources; by the spec the [blacklisted] flag of a record is resolved
    against the external static predicate [isBlacklisted] on the key
    material.  It writes through the pointers of the slice, so the records
    keep their order and their keys. *)
Definition markBlacklistedKeys `{Externals} (keys : list publicKey) : list publicKey :=
  map (fun k => {| key := key k; blacklisted := isBlacklisted (key k) |}) keys.

(** ** The session registry and the authentication callbacks *)

(** [sessions.keys]. *)
Abbreviation registry := (gmap string (list publicKey)).

(** Reading a Go map at a missing key gives the zero value, a nil slice. *)
Definition sessionKeys (keys : registry) (sessionID : string) : list publicKey :=
  default [] (keys !! sessionID).

Definition authResult : Type := option ssh.Permissions * option error.

Definition publicKeyCallback (keys : registry) (conn : ssh.ConnMetadata) (k : ssh.PublicKey)
  : registry * authResult :=
  let sessionID := ssh.SessionID conn in
  let keys' :=
    <[sessionID := sessionKeys keys sessionID ++ [{| key := k; blacklisted := false |}]]> keys in
  (keys', (None, Some (errors.New ""))).

(** The second component lists the challenges the callback has put to the
    client through its argument [challenge]. *)
Definition keyboardInteractiveCallback (conn : ssh.ConnMetadata)
    (challenge : ssh.Challenge -> list string * option error)
  : list ssh.Challenge * authResult :=
  ([], (None, None)).

(** ** The handshake, as [ssh.NewServerConn] drives the callbacks *)

Inductive authAttempt :=
  | OfferKey (k : ssh.PublicKey)
  | KeyboardInteractive (answer : ssh.Challenge -> list string * option error).

(** What the library has seen of one attempt. *)
Inductive authEvent :=
  | KeyDenied (k : ssh.PublicKey) (res : authResult)
  | KeyAccepted (k : ssh.PublicKey) (res : authResult)
  | InteractiveDenied (asked : list ssh.Challenge) (res : authResult)
  | InteractiveAccepted (asked : list ssh.Challenge) (res : authResult).

(** The library calls the callback of each attempt in turn and stops at the
    first one that returns a nil error; when the client gives up before
    that, authentication has failed. *)
Fixpoint serverAuthenticate (keys : registry) (conn : ssh.ConnMetadata)
    (attempts : list authAttempt) : registry * list authEvent * bool :=
  match attempts with
  | [] => (keys, [], false)
  | OfferKey k :: rest =>
      let '(keys', res) := publicKeyCallback keys conn k in
      match snd res with
      | None => (keys', [KeyAccepted k res], true)
      | Some _ =>
          let '(keys'', evs, ok) := serverAuthenticate keys' conn rest in
          (keys'', KeyDenied k res :: evs, ok)
      end
  | KeyboardInteractive answer :: rest =>
      let '(asked, res) := keyboardInteractiveCallback conn answer in
      match snd res with
      | None => (keys, [InteractiveAccepted asked res], true)
      | Some _ =>
          let '(keys', evs, ok) := serverAuthenticate keys conn rest in
          (keys', InteractiveDenied asked res :: evs, ok)
      end
  end.

(** ** The texts of the report *)

(** A raw string literal of the source, line by line. *)
Definition unlines (ls : list string) : string :=
  foldr (fun l acc => l +:+ LF +:+ acc) "" ls.

Definition agentMsg_raw : string :=
  unlines
    ["CRITICAL: SSH agent forwarding is enabled; it is dangerous to enable agent forwarding";
     TAB +:+ "  for servers you do not trust as it allows them to log in to other servers as you.";
     ""].

Definition agentMsg : string := Replace agentMsg_raw LF (LF +:+ CR).

Definition blacklistMsg_raw : string :=
  unlines
    ["CRITICAL: You are using blacklisted key(s) that are known to be insecure.";
     "          You should replace them immediately.";
     "          See: https://www.debian.org/security/2008/dsa-1576";
     ""].

Definition blacklistMsg : string := Replace blacklistMsg_raw LF (LF +:+ CR).

Definition dsaMsg_raw : string :=
  unlines
    ["WARNING:  You are using DSA (ssh-dss) key(s), which are no longer supported by";
     TAB +:+ "  default in OpenSSH version 7.0 and above.";
     "          Consider replacing them with a new RSA or ECDSA key.";
     ""].

Definition dsaMsg : string := Replace dsaMsg_raw LF (LF +:+ CR).

Definition weakMsg_raw : string :=
  unlines
    ["WARNING:  You are using RSA key(s) with a length of less than 2048 bits.";
     "          Consider replacing them with a new key of 2048 bits or more.";
     ""].

Definition weakMsg : string := Replace weakMsg_raw LF (LF +:+ CR).

Definition welcomeMsg_raw : string :=
  unlines
    ["This server checks your SSH public keys for known or potential";
     "security weaknesses.";
     "";
     "For more information, please see:";
     "https://github.com/mattbostock/sshkeycheck";
     "";
     "The public keys presented by your SSH client are:";
     ""].

Definition welcomeMsg : string := Replace welcomeMsg_raw LF (LF +:+ CR).

Definition x11Msg_raw : string :=
  unlines
    ["CRITICAL: X11 forwarding is enabled; it is dangerous to allow X11 forwarding";
     TAB +:+ "  for servers you do not trust as it allows them to access your desktop.";
     ""].

Definition x11Msg : string := Replace x11Msg_raw LF (LF +:+ CR).

(** ** The request listener of a channel, its timer and its mutex *)

(** The timer made by [time.AfterFunc]: it is armed, or it has been
    stopped before it fired, or it has fired and run its function. *)
Inductive Timer := Armed | Stopped | Fired.

(** [timeout.Stop()]: true when this call is the one that stops the timer. *)
Definition Timer_Stop (t : Timer) : bool * Timer :=
  match t with
  | Armed => (true, Stopped)
  | Stopped => (false, Stopped)
  | Fired => (false, Fired)
  end.

(** What the listener and the timer do that can be seen from outside. *)
Inductive listenerEvent :=
  | Received (req : ssh.Request)
  | Unlocked
  | Replied (req : ssh.Request) (ok : bool).

(** What the reporting goroutine does on the channel. *)
Inductive chanOutput :=
  | Write (data : string)
  | Close.

(** Where the reporting goroutine stands from line 156 on: waiting in
    [reqLock.Lock()], about to test [agentFwd], about to test [x11] (having
    read [a]), about to close, done. *)
Inductive mainPC :=
  | AtLock
  | AtAgentFwd
  | AtX11 (a : bool)
  | AtClose (a x : bool)
  | Returned (a x : bool).

(** The variables shared by the goroutines of one channel.  [reqLock] is
    true while the mutex is held; [fatal] records Go's fatal error on
    unlocking a mutex that is not held; [out] is what has been written to
    the channel from line 156 on. *)
Record chanState := {
  agentFwd : bool;
  x11 : bool;
  reqLock : bool;
  timeout : Timer;
  fatal : bool;
  pc : mainPC;
  out : list chanOutput;
  events : list listenerEvent
}.

(** After [reqLock.Lock()] and [time.AfterFunc] of lines 64 to 67. *)
Definition chanInit : chanState :=
  {| agentFwd := false; x11 := false; reqLock := true; timeout := Armed;
     fatal := false; pc := AtLock; out := []; events := [] |}.

Definition emit (e : listenerEvent) (st : chanState) : chanState :=
  {| agentFwd := agentFwd st; x11 := x11 st; reqLock := reqLock st;
     timeout := timeout st; fatal := fatal st; pc := pc st; out := out st;
     events := events st ++ [e] |}.

(** [reqLock.Unlock()]. *)
Definition Unlock (st : chanState) : chanState :=
  emit Unlocked
    {| agentFwd := agentFwd st; x11 := x11 st; reqLock := false;
       timeout := timeout st; fatal := fatal st || negb (reqLock st);
       pc := pc st; out := out st; events := events st |}.

Definition setTimeout (t : Timer) (st : chanState) : chanState :=
  {| agentFwd := agentFwd st; x11 := x11 st; reqLock := reqLock st;
     timeout := t; fatal := fatal st; pc := pc st; out := out st;
     events := events st |}.

Definition setAgentFwd (st : chanState) : chanState :=
  {| agentFwd := true; x11 := x11 st; reqLock := reqLock st;
     timeout := timeout st; fatal := fatal st; pc := pc st; out := out st;
     events := events st |}.

Definition setX11 (st : chanState) : chanState :=
  {| agentFwd := agentFwd st; x11 := true; reqLock := reqLock st;
     timeout := timeout st; fatal := fatal st; pc := pc st; out := out st;
     events := events st |}.

(** The reporting goroutine moves on: the mutex becomes [lock], the
    program counter [p], and [outs] goes to the channel. *)
Definition advance (lock : bool) (p : mainPC) (outs : list chanOutput) (st : chanState)
  : chanState :=
  {| agentFwd := agentFwd st; x11 := x11 st; reqLock := lock;
     timeout := timeout st; fatal := fatal st; pc := p; out := out st ++ outs;
     events := events st |}.

(** The [switch] of the listener: the new state and the value of [ok]. *)
Definition switchType (st : chanState) (req : ssh.Request) : chanState * bool :=
  let ty := ssh.ReqType req in
  if decide (ty = "shell" \/ ty = "pty-req") then
    let '(stopped, t) := Timer_Stop (timeout st) in
    let st := setTimeout t st in
    (if stopped then Unlock st else st, true)
  else if decide (ty = "auth-agent-req@openssh.com") then (setAgentFwd st, false)
  else if decide (ty = "x11-req") then (setX11 st, false)
  else (st, false).

(** One turn of the loop [for req := range in]. *)
Definition handleRequest (st : chanState) (req : ssh.Request) : chanState :=
  let '(st, ok) := switchType (emit (Received req) st) req in
  if ssh.WantReply req then emit (Replied req ok) st else st.

(** The function given to [time.AfterFunc]; the runtime runs it only for a
    timer that is still armed. *)
Definition timerFires (st : chanState) : chanState :=
  match timeout st with
  | Armed => Unlock (setTimeout Fired st)
  | _ => st
  end.

(** One step of the reporting goroutine, lines 156 to 165.  In
    [reqLock.Lock()] it moves only when the mutex is free. *)
Definition mainStep (st : chanState) : chanState :=
  match pc st with
  | AtLock => if reqLock st then st else advance true AtAgentFwd [] st
  | AtAgentFwd =>
      let a := agentFwd st in
      advance (reqLock st) (AtX11 a) (if a then [Write agentMsg] else []) st
  | AtX11 a =>
      let x := x11 st in
      advance (reqLock st) (AtClose a x) (if x then [Write x11Msg] else []) st
  | AtClose a x => advance (reqLock st) (Returned a x) [Close] st
  | Returned _ _ => st
  end.

(** A schedule of one channel: which goroutine moves next. *)
Inductive schedEvent :=
  | SRequest (req : ssh.Request)
  | STimer
  | SMain.

Definition schedStep (st : chanState) (e : schedEvent) : chanState :=
  match e with
  | SRequest req => handleRequest st req
  | STimer => timerFires st
  | SMain => mainStep st
  end.

Definition runSchedule (sched : list schedEvent) : chanState :=
  fold_left schedStep sched chanInit.

(** The listener alone, on the requests of a channel. *)
Definition listener (st : chanState) (reqs : list ssh.Request) : chanState :=
  fold_left handleRequest reqs st.

(** A complete schedule is followed by the timer going off, which the
    runtime does to an armed timer at the latest after 30 seconds, and by
    the reporting goroutine running to its end. *)
Definition completion : list schedEvent := [STimer; SMain; SMain; SMain; SMain].

Definition runChannel (sched : list schedEvent) : chanState :=
  runSchedule (sched ++ completion).

(** ** The audit of the harvested keys *)

Module audit.
(** The variables of the loop over [keys]: the bytes written to
    [tabWriter] so far, [issues], the three flags of the session, and
    what went to the error log. *)
Record vars := {
  tabWriter : string;
  issues : string;
  blacklisted : bool;
  weak : bool;
  dsa : bool;
  logged : list string
}.
End audit.

(** [fmt.Fprintf(tabWriter, "%d\t%s\t%s\t%s\t\n", ...)]. *)
Definition row (length ty fingerprint issues : string) : string :=
  length +:+ TAB +:+ ty +:+ TAB +:+ fingerprint +:+ TAB +:+ issues +:+ TAB +:+ LF.

Definition header : string :=
  "Bits" +:+ TAB +:+ "Type" +:+ TAB +:+ "Fingerprint" +:+ TAB +:+ "Issues" +:+ LF.

Section Audit.
Context `{Externals}.

(** The body of [for _, k := range keys], lines 110 to 133. *)
Definition auditKey (v : audit.vars) (k : publicKey) : audit.vars :=
  let issues := "No known issues" in
  let '(length, err) := BitLen k in
  let ty := ssh.KeyType (key k) in
  let logged :=
    match err with
    | Some e =>
        audit.logged v ++ ["Failed to determine key length for " +:+ ty +:+ " key: " +:+ e]
    | None => audit.logged v
    end in
  let '(issues, dsa) :=
    if decide (ty = ssh.KeyAlgoDSA) then ("DSA KEY", true) else (issues, audit.dsa v) in
  let '(issues, weak) :=
    if (length <? 2048) && bool_decide (ty = ssh.KeyAlgoRSA)
    then ("WEAK KEY LENGTH", true) else (issues, audit.weak v) in
  let '(issues, blacklisted_) :=
    if blacklisted k then ("BLACKLISTED", true) else (issues, audit.blacklisted v) in
  {| audit.tabWriter :=
       audit.tabWriter v +:+ row (fmt_d length) ty (Fingerprint k) issues;
     audit.issues := issues;
     audit.blacklisted := blacklisted_;
     audit.weak := weak;
     audit.dsa := dsa;
     audit.logged := logged |}.

(** The loop variables before the first key, lines 100 to 108. *)
Definition auditInit : audit.vars :=
  {| audit.tabWriter := header; audit.issues := "";
     audit.blacklisted := false; audit.weak := false; audit.dsa := false;
     audit.logged := [] |}.

Definition auditKeys (keys : list publicKey) : audit.vars :=
  fold_left auditKey keys auditInit.

(** Lines 98 to 154: what the reporting goroutine writes to the channel
    before it waits for [reqLock].  [Flush] cannot fail on a
    [bytes.Buffer], and the results of [channel.Write] are dropped. *)
Definition reportHead (keys : list publicKey) : list chanOutput :=
  let v := auditKeys keys in
  let table := tabwriter_Flush (audit.tabWriter v) in
  [Write welcomeMsg; Write (Replace table LF (LF +:+ CR) +:+ LF +:+ CR)]
  ++ (if audit.blacklisted v then [Write blacklistMsg] else [])
  ++ (if audit.dsa v then [Write dsaMsg] else [])
  ++ (if audit.weak v then [Write weakMsg] else []).

(** ** [serve] *)

(** A channel the client opens: its type, whether [Accept] works, and
    the schedule of its goroutines. *)
Record NewChannel := {
  ChannelType : string;
  AcceptError : option error;
  sched : list schedEvent
}.

(** A client connection, as far as [serve] can tell clients apart:
    [gaveUp] is the error the library reports when the client ends the
    handshake without an accepted attempt. *)
Record client := {
  meta : ssh.ConnMetadata;
  attempts : list authAttempt;
  gaveUp : error;
  chans : list NewChannel
}.

Inductive serveEvent :=
  | LogWarn (msg : string)
  | LogError (msg : string)
  | Rejected (reason : ssh.RejectionReason) (msg : string)
  | Session (written : list chanOutput) (heard : list listenerEvent)
  | ConnClosed.

(** [ssh.NewServerConn]: the connection, or the error of a handshake in
    which no attempt was accepted.  The callbacks have run either way. *)
Definition NewServerConn (keys : registry) (c : client)
  : registry * (ssh.ConnMetadata + error) :=
  let '(keys', _, ok) := serverAuthenticate keys (meta c) (attempts c) in
  (keys', if ok then inl (meta c) else inr (gaveUp c)).

(** The body of [for n := range chans], lines 53 to 165.  [keys] is the
    slice read at line 44: it holds pointers, so the flags that
    [markBlacklistedKeys] sets are seen by the next channel and by the
    registry. *)
Definition serveChannel (sessionID : string)
    (acc : registry * list publicKey * list serveEvent) (n : NewChannel)
  : registry * list publicKey * list serveEvent :=
  let '(reg, keys, evs) := acc in
  if decide (ChannelType n <> "session") then
    (reg, keys, evs ++ [Rejected ssh.UnknownChannelType "unknown channel type"])
  else
    match AcceptError n with
    | Some e => (reg, keys, evs ++ [LogWarn ("Could not accept channel: " +:+ e)])
    | None =>
        let keys := markBlacklistedKeys keys in
        let reg := alter (fun _ => keys) sessionID reg in
        let st := runChannel (sched n) in
        (reg, keys,
         evs ++ map LogError (audit.logged (auditKeys keys))
             ++ [Session (reportHead keys ++ out st) (events st)])
    end.

Definition serve (keys : registry) (c : client) : registry * list serveEvent :=
  match NewServerConn keys c with
  | (keys, inr err) => (keys, [LogWarn ("Failed to handshake: " +:+ err)])
  | (keys, inl conn) =>
      let sessionID := ssh.SessionID conn in
      let '(reg, _, evs) :=
        fold_left (serveChannel sessionID) (chans c)
                  (keys, sessionKeys keys sessionID, []) in
      (delete sessionID reg, evs ++ [ConnClosed])
  end.

End Audit.


(** ** Vocabulary of the statements *)

(** The record that [publicKeyCallback] appends for an offered key. *)
Definition harvested (k : ssh.PublicKey) : publicKey :=
  {| key := k; blacklisted := false |}.

(** The one denial of the public-key callback. *)
Definition denial : authResult := (None, Some (errors.New "")).

(** The registry after the callback has run on each key of [ks] in turn. *)
Definition harvest (keys : registry) (conn : ssh.ConnMetadata) (ks : list ssh.PublicKey)
  : registry :=
  fold_left (fun r k => fst (publicKeyCallback r conn k)) ks keys.

(** The requests the listener answers with [ok = true]. *)
Definition isShellOrPty (req : ssh.Request) : bool :=
  bool_decide (ssh.ReqType req = "shell" \/ ssh.ReqType req = "pty-req").

Definition isAgentReq (e : schedEvent) : bool :=
  match e with
  | SRequest req => bool_decide (ssh.ReqType req = "auth-agent-req@openssh.com")
  | _ => false
  end.

Definition isX11Req (e : schedEvent) : bool :=
  match e with
  | SRequest req => bool_decide (ssh.ReqType req = "x11-req")
  | _ => false
  end.

(** What the listener owes the client for one request: it takes the
    request and, when a reply is wanted, sends one. *)
Definition exchange (req : ssh.Request) : list listenerEvent :=
  Received req :: (if ssh.WantReply req then [Replied req (isShellOrPty req)] else []).

Definition requestsOf (sched : list schedEvent) : list ssh.Request :=
  flat_map (fun e => match e with SRequest req => [req] | _ => [] end) sched.

Definition isUnlocked (e : listenerEvent) : bool :=
  match e with Unlocked => true | _ => false end.

(** The receptions and replies among the events, in their order. *)
Definition dialogue (evs : list listenerEvent) : list listenerEvent :=
  List.filter (fun e => negb (isUnlocked e)) evs.

(** How often [reqLock.Unlock()] has been called. *)
Definition unlockCount (evs : list listenerEvent) : nat :=
  length (List.filter isUnlocked evs).

(** The two things that open the latch: the timer going off, and a
    "shell" or "pty-req" request. *)
Definition isTrigger (e : schedEvent) : bool :=
  match e with
  | STimer => true
  | SRequest req => isShellOrPty req
  | SMain => false
  end.

Definition opt (b : bool) (msg : string) : list chanOutput :=
  if b then [Write msg] else [].

(** What the reporting goroutine has written after the latch, by where it
    stands. *)
Definition written (p : mainPC) : list chanOutput :=
  match p with
  | AtLock | AtAgentFwd => []
  | AtX11 a => opt a agentMsg
  | AtClose a x => opt a agentMsg ++ opt x x11Msg
  | Returned a x => opt a agentMsg ++ opt x x11Msg ++ [Close]
  end.

Definition readAgentFwd (p : mainPC) : bool :=
  match p with
  | AtX11 a | AtClose a _ | Returned a _ => a
  | _ => false
  end.

Definition readX11 (p : mainPC) : bool :=
  match p with
  | AtClose _ x | Returned _ x => x
  | _ => false
  end.

(** A request of each kind, and a client with two keys. *)
Definition x11Request : ssh.Request := {| ssh.ReqType := "x11-req"; ssh.WantReply := true |}.
Definition agentRequest : ssh.Request :=
  {| ssh.ReqType := "auth-agent-req@openssh.com"; ssh.WantReply := true |}.
Definition ptyRequest : ssh.Request := {| ssh.ReqType := "pty-req"; ssh.WantReply := true |}.
Definition shellRequest : ssh.Request := {| ssh.ReqType := "shell"; ssh.WantReply := true |}.
Definition envRequest : ssh.Request := {| ssh.ReqType := "env"; ssh.WantReply := true |}.

Definition aliceConn : ssh.ConnMetadata := {| ssh.User := "alice"; ssh.SessionID := "session-1" |}.
Definition rsaKey : ssh.PublicKey := {| ssh.KeyType := "ssh-rsa"; ssh.Marshal := "rsa-2048" |}.
Definition dsaKey : ssh.PublicKey := {| ssh.KeyType := "ssh-dss"; ssh.Marshal := "dsa-blob" |}.
Definition noAnswer (c : ssh.Challenge) : list string * option error := ([], None).


(** What holds of the shared variables of a channel after a schedule. *)
Record chanInv (sched : list schedEvent) (st : chanState) : Prop := {
  inv_fatal : fatal st = false;
  inv_count : unlockCount (events st) = if existsb isTrigger sched then 1%nat else 0%nat;
  inv_timer : timeout st = Armed <-> existsb isTrigger sched = false;
  inv_lock :
    reqLock st = match pc st with AtLock => negb (existsb isTrigger sched) | _ => true end;
  inv_pc : existsb isTrigger sched = false -> pc st = AtLock;
  inv_out : out st = written (pc st);
  inv_agentFwd : agentFwd st = existsb isAgentReq sched;
  inv_x11 : x11 st = existsb isX11Req sched;
  inv_readAgentFwd : readAgentFwd (pc st) = true -> agentFwd st = true;
  inv_readX11 : readX11 (pc st) = true -> x11 st = true
}.


Section AuditVocabulary.
Context `{Externals}.

Definition keyLength (k : publicKey) : Z := fst (BitLen k).

Definition isDSA (k : publicKey) : bool :=
  bool_decide (ssh.KeyType (key k) = ssh.KeyAlgoDSA).

Definition isWeakRSA (k : publicKey) : bool :=
  (keyLength k <? 2048) && bool_decide (ssh.KeyType (key k) = ssh.KeyAlgoRSA).

(** The classification in the words of the specification, by priority:
    blacklisted, then DSA, then RSA shorter than 2048 bits. *)
Definition classify (k : publicKey) : string :=
  if blacklisted k then "BLACKLISTED"
  else if isDSA k then "DSA KEY"
  else if isWeakRSA k then "WEAK KEY LENGTH"
  else "No known issues".

(** The row of a key in the table. *)
Definition auditRow (k : publicKey) : string :=
  row (fmt_d (keyLength k)) (ssh.KeyType (key k)) (Fingerprint k) (classify k).

Definition tableRows (keys : list publicKey) : string :=
  foldr (fun k acc => auditRow k +:+ acc) "" keys.

(** What the audit of a key sends to the error log. *)
Definition failureLog (k : publicKey) : list string :=
  match snd (BitLen k) with
  | Some e =>
      ["Failed to determine key length for " +:+ ssh.KeyType (key k) +:+ " key: " +:+ e]
  | None => []
  end.

End AuditVocabulary.

(** The cells of a line written to the [tabwriter.Writer]: a cell ends at
    a tab, and what follows the last tab is the trailing cell. *)
Fixpoint cells (line : string) : list string :=
  match line with
  | EmptyString => [EmptyString]
  | String c rest =>
      if Ascii.eqb c (ascii_of_nat 9) then EmptyString :: cells rest
      else match cells rest with
           | [] => [String c EmptyString]
           | cell :: more => String c cell :: more
           end
  end.

(** The lines of a text, each without its line feed. *)
Fixpoint textLines (text : string) : list string :=
  match text with
  | EmptyString => []
  | String c rest =>
      if Ascii.eqb c (ascii_of_nat 10) then EmptyString :: textLines rest
      else match textLines rest with
           | [] => [String c EmptyString]
           | line :: more => String c line :: more
           end
  end.

(** Collaborators for the examples: an RSA key tells its length in its
    blob, and [BitLen] fails with length 0 on any other RSA blob and on
    key types it does not know; the blacklist holds the blob
    "weak-debian". *)
Definition demoBitLen (k : publicKey) : Z * option error :=
  if decide (ssh.KeyType (key k) = ssh.KeyAlgoRSA) then
    if decide (ssh.Marshal (key k) = "rsa-1024") then (1024, None)
    else if decide (ssh.Marshal (key k) = "rsa-2047") then (2047, None)
    else if decide (ssh.Marshal (key k) = "rsa-2048") then (2048, None)
    else (0, Some (errors.New "ssh: short read"))
  else if decide (ssh.KeyType (key k) = "ecdsa-sha2-nistp256") then (256, None)
  else if decide (ssh.KeyType (key k) = ssh.KeyAlgoDSA) then (1024, None)
  else (0, Some (errors.New "unsupported key type")).

Definition demoExternals : Externals :=
  {| BitLen := demoBitLen;
     Fingerprint := fun k => "fp:" +:+ ssh.Marshal (key k);
     isBlacklisted := fun k => bool_decide (ssh.Marshal k = "weak-debian");
     tabwriter_Flush := fun text => text |}.

(** Keys for the examples. *)
Definition blacklistedDsaKey : publicKey :=
  {| key := {| ssh.KeyType := "ssh-dss"; ssh.Marshal := "weak-debian" |}; blacklisted := true |}.
Definition rsa2048 : publicKey :=
  {| key := {| ssh.KeyType := "ssh-rsa"; ssh.Marshal := "rsa-2048" |}; blacklisted := false |}.
Definition rsa2047 : publicKey :=
  {| key := {| ssh.KeyType := "ssh-rsa"; ssh.Marshal := "rsa-2047" |}; blacklisted := false |}.
Definition rsa1024Key : ssh.PublicKey := {| ssh.KeyType := "ssh-rsa"; ssh.Marshal := "rsa-1024" |}.
Definition weakDebianKey : ssh.PublicKey :=
  {| ssh.KeyType := "ecdsa-sha2-nistp256"; ssh.Marshal := "weak-debian" |}.
Definition ed25519Key : publicKey :=
  {| key := {| ssh.KeyType := "ssh-ed25519"; ssh.Marshal := "ed-blob" |}; blacklisted := false |}.

(** The reporting goroutine takes [n] steps in a row. *)
Definition mainSteps (n : nat) (st : chanState) : chanState :=
  fold_left schedStep (replicate n SMain) st.

(** A client that offers one key and drops the connection, and one that
    goes on to keyboard-interactive and opens a session. *)
Definition droppingClient : client :=
  {| meta := aliceConn; attempts := [OfferKey rsaKey]; gaveUp := "EOF"; chans := [] |}.
Definition patientClient : client :=
  {| meta := aliceConn;
     attempts := [OfferKey rsaKey; KeyboardInteractive noAnswer];
     gaveUp := "EOF";
     chans := [{| ChannelType := "session"; AcceptError := None;
                  sched := [SRequest ptyRequest] |}] |}.

(** Calls of the public-key callback by several connections, in the order
    in which [sessions.mu] lets them in. *)
Definition callbacks (keys : registry) (calls : list (ssh.ConnMetadata * ssh.PublicKey))
  : registry :=
  fold_left (fun r call => fst (publicKeyCallback r (fst call) (snd call))) calls keys.

(** The keys that the calls offer on the session identity [sid], in order. *)
Definition offeredOn (sid : string) (calls : list (ssh.ConnMetadata * ssh.PublicKey))
  : list ssh.PublicKey :=
  map snd (List.filter (fun call => bool_decide (ssh.SessionID (fst call) = sid)) calls).

Definition isInteractive (a : authAttempt) : bool :=
  match a with KeyboardInteractive _ => true | OfferKey _ => false end.

Definition isAccepted (e : authEvent) : bool :=
  match e with KeyAccepted _ _ | InteractiveAccepted _ _ => true | _ => false end.

(** The keys offered before the first keyboard-interactive attempt. *)
Fixpoint offersBeforeInteractive (attempts : list authAttempt) : list ssh.PublicKey :=
  match attempts with
  | OfferKey k :: rest => k :: offersBeforeInteractive rest
  | _ => []
  end.

(** Every line feed of the text is followed by a carriage return. *)
Fixpoint lfThenCr (text : string) : bool :=
  match text with
  | EmptyString => true
  | String c rest =>
      if Ascii.eqb c (ascii_of_nat 10) then
        match rest with
        | String c' rest' => Ascii.eqb c' (ascii_of_nat 13) && lfThenCr rest
        | EmptyString => false
        end
      else lfThenCr rest
  end.

Definition isMainStep (e : schedEvent) : bool :=
  match e with SMain => true | _ => false end.


(** Every write of the list has a carriage return after each line feed. *)
Definition lineEndingsOk (outs : list chanOutput) : bool :=
  forallb (fun o => match o with Write data => lfThenCr data | Close => true end) outs.

Section ServeVocabulary.
Context `{Externals}.

(** What [serve] does for one channel of a connection whose keys, once
    marked, are [marked]. *)
Definition channelEvents (marked : list publicKey) (n : NewChannel) : list serveEvent :=
  if decide (ChannelType n <> "session") then
    [Rejected ssh.UnknownChannelType "unknown channel type"]
  else
    match AcceptError n with
    | Some e => [LogWarn ("Could not accept channel: " +:+ e)]
    | None =>
        map LogError (flat_map failureLog marked)
          ++ [Session (reportHead marked ++ out (runChannel (sched n)))
                      (events (runChannel (sched n)))]
    end.

End ServeVocabulary.

(** A client that opens a forwarding channel, a session whose accept
    fails, and a session. *)
Definition busyClient : client :=
  {| meta := aliceConn;
     attempts := [OfferKey rsaKey; KeyboardInteractive noAnswer];
     gaveUp := "EOF";
     chans := [{| ChannelType := "direct-tcpip"; AcceptError := None; sched := [] |};
               {| ChannelType := "session"; AcceptError := Some "EOF"; sched := [] |};
               {| ChannelType := "session"; AcceptError := None;
                  sched := [SRequest ptyRequest] |}] |}.

(** ** The harvest *)

Lemma sessionKeys_insert (keys : registry) (sid : string) (l : list publicKey) :
  sessionKeys (<[sid := l]> keys) sid = l.
Proof. unfold sessionKeys. by rewrite lookup_insert_eq. Qed.

Lemma sessionKeys_insert_ne (keys : registry) (sid sid' : string) (l : list publicKey) :
  sid <> sid' -> sessionKeys (<[sid := l]> keys) sid' = sessionKeys keys sid'.
Proof. intros Hne. unfold sessionKeys. by rewrite lookup_insert_ne. Qed.

Lemma harvest_sessionKeys (conn : ssh.ConnMetadata) (ks : list ssh.PublicKey) :
  forall keys : registry,
    sessionKeys (harvest keys conn ks) (ssh.SessionID conn)
    = sessionKeys keys (ssh.SessionID conn) ++ map harvested ks.
Proof.
  induction ks as [|k ks IH]; intros keys; simpl.
  - by rewrite app_nil_r.
  - unfold harvest in *. simpl. rewrite IH, sessionKeys_insert.
    by rewrite <- app_assoc.
Qed.

Lemma harvest_other (conn : ssh.ConnMetadata) (ks : list ssh.PublicKey) (sid : string) :
  sid <> ssh.SessionID conn ->
  forall keys : registry, harvest keys conn ks !! sid = keys !! sid.
Proof.
  intros Hne. induction ks as [|k ks IH]; intros keys; [done|].
  unfold harvest in *. simpl. rewrite IH. by rewrite lookup_insert_ne.
Qed.

(** Offers are all denied, whatever follows them in the handshake. *)
Lemma serverAuthenticate_offers (conn : ssh.ConnMetadata) (rest : list authAttempt)
    (ks : list ssh.PublicKey) :
  forall keys : registry,
    serverAuthenticate keys conn (map OfferKey ks ++ rest)
    = let '(keys', evs, ok) := serverAuthenticate (harvest keys conn ks) conn rest in
      (keys', map (fun k => KeyDenied k denial) ks ++ evs, ok).
Proof.
  induction ks as [|k ks IH]; intros keys; simpl.
  - by destruct (serverAuthenticate _ conn rest) as [[? ?] ?].
  - rewrite IH. unfold harvest. simpl.
    by destruct (serverAuthenticate _ conn rest) as [[? ?] ?].
Qed.

(** C1: in a connection attempt that offers the keys [ks] (any number of
    them) and then falls back to keyboard-interactive, on a session
    identity the registry does not hold yet: each offer is answered by the
    public-key callback with no permissions and a non-nil error, the
    keyboard-interactive callback then accepts, once, having put no
    challenge to the client, and the registry entry of the session holds,
    after the last offer as at the end, exactly the offered keys in the
    order of the offers. *)
Theorem harvest_then_admit (keys : registry) (conn : ssh.ConnMetadata)
    (ks : list ssh.PublicKey) (answer : ssh.Challenge -> list string * option error) :
  keys !! ssh.SessionID conn = None ->
  serverAuthenticate keys conn (map OfferKey ks ++ [KeyboardInteractive answer])
  = (harvest keys conn ks,
     map (fun k => KeyDenied k (None, Some (errors.New ""))) ks
       ++ [InteractiveAccepted [] (None, None)],
     true)
  /\ (forall (r : registry) (k : ssh.PublicKey),
        exists e, snd (publicKeyCallback r conn k) = (None, Some e))
  /\ serverAuthenticate keys conn (map OfferKey ks)
     = (harvest keys conn ks, map (fun k => KeyDenied k (None, Some (errors.New ""))) ks, false)
  /\ sessionKeys (harvest keys conn ks) (ssh.SessionID conn) = map harvested ks.
Proof.
  intros Hfresh. repeat split.
  - by rewrite serverAuthenticate_offers.
  - intros r k. by exists (errors.New "").
  - rewrite <- (app_nil_r (map OfferKey ks)), serverAuthenticate_offers. simpl.
    by rewrite app_nil_r.
  - rewrite harvest_sessionKeys. unfold sessionKeys. by rewrite Hfresh.
Qed.

Lemma harvest_then_admit_witness :
  (∅ : registry) !! ssh.SessionID aliceConn = None
  /\ sessionKeys (harvest ∅ aliceConn [rsaKey; dsaKey]) (ssh.SessionID aliceConn)
     = [harvested rsaKey; harvested dsaKey].
Proof.
  split; [reflexivity|].
  apply (harvest_then_admit ∅ aliceConn [rsaKey; dsaKey] noAnswer). reflexivity.
Defined.

(** C9: the public-key callback gives the same answer for any two keys,
    in whatever connections and registry states it is called: nil
    permissions and the error made by [errors.New("")].  The answer tells
    nothing about the key. *)
Theorem denial_independent_of_key (keys1 keys2 : registry) (conn1 conn2 : ssh.ConnMetadata)
    (k1 k2 : ssh.PublicKey) :
  snd (publicKeyCallback keys1 conn1 k1) = snd (publicKeyCallback keys2 conn2 k2)
  /\ snd (publicKeyCallback keys1 conn1 k1) = (None, Some (errors.New "")).
Proof. split; reflexivity. Qed.

(** ** The listener and the latch *)

Lemma runSchedule_snoc (sched : list schedEvent) (e : schedEvent) :
  runSchedule (sched ++ [e]) = schedStep (runSchedule sched) e.
Proof. unfold runSchedule. by rewrite fold_left_app. Qed.

Lemma dialogue_app (l1 l2 : list listenerEvent) :
  dialogue (l1 ++ l2) = dialogue l1 ++ dialogue l2.
Proof. unfold dialogue. apply List.filter_app. Qed.

Lemma unlockCount_app (l1 l2 : list listenerEvent) :
  unlockCount (l1 ++ l2) = (unlockCount l1 + unlockCount l2)%nat.
Proof. unfold unlockCount. by rewrite List.filter_app, length_app. Qed.

(** The cases of the [switch], by the type of the request. *)
Ltac by_request_type :=
  unfold handleRequest, switchType, isShellOrPty; simpl;
  repeat case_decide; repeat case_bool_decide; try tauto; try congruence.

Lemma handleRequest_dialogue (st : chanState) (req : ssh.Request) :
  dialogue (events (handleRequest st req)) = dialogue (events st) ++ exchange req.
Proof.
  unfold exchange. by_request_type;
    destruct (timeout st), (ssh.WantReply req); simpl;
    rewrite ?dialogue_app; simpl; rewrite <- ?app_assoc, ?app_nil_r; reflexivity.
Qed.

Lemma schedStep_dialogue (st : chanState) (e : schedEvent) :
  dialogue (events (schedStep st e))
  = dialogue (events st) ++ match e with SRequest req => exchange req | _ => [] end.
Proof.
  destruct e as [req| |]; simpl.
  - apply handleRequest_dialogue.
  - unfold timerFires. destruct (timeout st); simpl;
      rewrite ?dialogue_app; simpl; by rewrite ?app_nil_r.
  - unfold mainStep. destruct (pc st), (reqLock st); simpl; by rewrite app_nil_r.
Qed.

Lemma fold_schedStep_dialogue (sched : list schedEvent) :
  forall st : chanState,
    dialogue (events (fold_left schedStep sched st))
    = dialogue (events st) ++ flat_map exchange (requestsOf sched).
Proof.
  induction sched as [|e sched IH]; intros st; simpl.
  - by rewrite app_nil_r.
  - rewrite IH, schedStep_dialogue. rewrite <- app_assoc. f_equal.
    destruct e; reflexivity.
Qed.

(** C3, as the code has it: under every schedule of a channel, the
    receptions and replies of the listener are, request by request in the
    order of arrival, the reception of the request followed, exactly when
    the request wants a reply, by one reply, sent before the next request
    is taken.  The reply is affirmative for "shell" and "pty-req" and
    negative for every other type, the agent-forwarding and X11 requests
    included. *)
Theorem listener_replies (sched : list schedEvent) :
  dialogue (events (runSchedule sched))
  = flat_map
      (fun req =>
         Received req ::
         (if ssh.WantReply req
          then [Replied req
                  (bool_decide (ssh.ReqType req = "shell" \/ ssh.ReqType req = "pty-req"))]
          else []))
      (requestsOf sched).
Proof. unfold runSchedule. by rewrite fold_schedStep_dialogue. Qed.

(** An X11 request and an agent-forwarding request that want a reply are
    each answered once, in the negative. *)
Lemma forwarding_requests_refused :
  events (handleRequest chanInit x11Request)
  = [Received x11Request; Replied x11Request false]
  /\ events (handleRequest chanInit agentRequest)
     = [Received agentRequest; Replied agentRequest false]
  /\ ~ In (Replied x11Request true) (events (handleRequest chanInit x11Request))
  /\ ~ In (Replied agentRequest true) (events (handleRequest chanInit agentRequest)).
Proof.
  repeat split; try reflexivity; vm_compute; intros [H|[H|[]]]; discriminate H.
Qed.

Lemma chanInv_init : chanInv [] chanInit.
Proof. split; simpl; try done. Qed.

Lemma existsb_snoc {A} (f : A -> bool) (l : list A) (x : A) :
  existsb f (l ++ [x]) = existsb f l || f x.
Proof. rewrite existsb_app. simpl. by rewrite orb_false_r. Qed.

Lemma switchType_cases (st : chanState) (req : ssh.Request) :
  (isShellOrPty req = true /\ isAgentReq (SRequest req) = false
   /\ isX11Req (SRequest req) = false
   /\ switchType st req
      = (match timeout st with
         | Armed => Unlock (setTimeout Stopped st)
         | t => setTimeout t st
         end, true))
  \/ (isShellOrPty req = false /\ isAgentReq (SRequest req) = true
      /\ isX11Req (SRequest req) = false /\ switchType st req = (setAgentFwd st, false))
  \/ (isShellOrPty req = false /\ isAgentReq (SRequest req) = false
      /\ isX11Req (SRequest req) = true /\ switchType st req = (setX11 st, false))
  \/ (isShellOrPty req = false /\ isAgentReq (SRequest req) = false
      /\ isX11Req (SRequest req) = false /\ switchType st req = (st, false)).
Proof.
  unfold switchType, isShellOrPty, isAgentReq, isX11Req.
  destruct (decide (ssh.ReqType req = "shell" \/ ssh.ReqType req = "pty-req")) as [Hs|Hs].
  - left. rewrite bool_decide_eq_true_2 by done.
    rewrite !bool_decide_eq_false_2 by (intros E; destruct Hs as [E'|E']; rewrite E' in E; discriminate E).
    repeat split. by destruct (timeout st).
  - right. rewrite (bool_decide_eq_false_2 _ Hs).
    destruct (decide (ssh.ReqType req = "auth-agent-req@openssh.com")) as [Ha|Ha].
    + left. rewrite bool_decide_eq_true_2 by done.
      rewrite bool_decide_eq_false_2 by (intros E; rewrite Ha in E; discriminate E).
      done.
    + right. rewrite (bool_decide_eq_false_2 _ Ha).
      destruct (decide (ssh.ReqType req = "x11-req")) as [Hx|Hx].
      * left. by rewrite bool_decide_eq_true_2.
      * right. by rewrite bool_decide_eq_false_2.
Qed.

Lemma chanInv_step (sched : list schedEvent) (st : chanState) (e : schedEvent) :
  chanInv sched st -> chanInv (sched ++ [e]) (schedStep st e).
Proof.
  intros [Hf Hc Ht Hl Hp Ho Ha Hx Hra Hrx].
  assert (Hcase : (existsb isTrigger sched = false /\ timeout st = Armed /\ pc st = AtLock)
                  \/ (existsb isTrigger sched = true /\ timeout st <> Armed)).
  { destruct (existsb isTrigger sched); [right|left]; intuition congruence. }
  clear Ht Hp.
  destruct e as [req| |].
  - unfold schedStep, handleRequest.
    destruct (switchType_cases (emit (Received req) st) req)
      as [(Hs & Hg & Hr & ->)|[(Hs & Hg & Hr & ->)|[(Hs & Hg & Hr & ->)|(Hs & Hg & Hr & ->)]]];
    destruct st as [a x l t f p o evs]; simpl in *.
    all: destruct Hcase as [(Etr & -> & ->)|(Etr & Hne)]; [|destruct t; [done| |]].
    all: destruct (ssh.WantReply req); simpl in *.
    all: split; rewrite ?existsb_snoc, ?Etr; simpl; rewrite ?Hs, ?Hg, ?Hr, ?orb_false_r; simpl;
        rewrite ?unlockCount_app; simpl; subst; rewrite ?Hc, ?Etr, ?orb_true_r; try done.
  - destruct st as [a x l t f p o evs]; simpl in *. unfold timerFires; simpl.
    destruct Hcase as [(Etr & -> & ->)|(Etr & Hne)]; [|destruct t; [done| |]].
    all: split; rewrite ?existsb_snoc, ?Etr; simpl; rewrite ?orb_false_r; simpl;
        rewrite ?unlockCount_app; simpl; subst; rewrite ?Hc, ?Etr, ?orb_true_r; try done.
  - destruct st as [a x l t f p o evs]; simpl in *. unfold mainStep; simpl.
    destruct Hcase as [(Etr & -> & ->)|(Etr & Hne)].
    + subst. split; rewrite ?existsb_snoc, ?Etr; simpl; rewrite ?Hc, ?Etr, ?orb_false_r; try done.
    + rewrite Etr in *. destruct p; simpl in *; subst; simpl.
      all: split; rewrite ?existsb_snoc, ?Etr; simpl;
        rewrite ?orb_false_r, ?Etr, ?app_nil_r, <- ?app_assoc; simpl; try done.
Qed.

Lemma chanInv_run (sched : list schedEvent) : chanInv sched (runSchedule sched).
Proof.
  induction sched as [|e sched IH] using rev_ind.
  - apply chanInv_init.
  - rewrite runSchedule_snoc. by apply chanInv_step.
Qed.





(** Two "pty-req" requests and then the timer: one unlock, at the first. *)
Example second_pty_req_does_not_unlock :
  events (runSchedule [SRequest ptyRequest; SRequest ptyRequest; STimer])
  = [Received ptyRequest; Unlocked; Replied ptyRequest true;
     Received ptyRequest; Replied ptyRequest true].
Proof. reflexivity. Qed.

(** The timer first, then a "shell" request: one unlock, by the timer. *)
Example shell_after_timer_does_not_unlock :
  events (runSchedule [STimer; SRequest shellRequest])
  = [Unlocked; Received shellRequest; Replied shellRequest true].
Proof. reflexivity. Qed.

(** ** The audit *)

Lemma string_app_assoc (s1 s2 s3 : string) : (s1 +:+ s2) +:+ s3 = s1 +:+ s2 +:+ s3.
Proof.
  induction s1 as [|c s1 IH]; [done|].
  change (String c ((s1 +:+ s2) +:+ s3) = String c (s1 +:+ s2 +:+ s3)).
  by rewrite IH.
Qed.

Lemma string_app_nil_r (s : string) : s +:+ "" = s.
Proof.
  induction s as [|c s IH]; [done|].
  change (String c (s +:+ "") = String c s). by rewrite IH.
Qed.

(** [%d] never prints nothing. *)
Lemma pretty_N_go_nonempty (x : N) :
  forall s : string, s <> "" -> pretty_N_go x s <> "".
Proof.
  induction (N.lt_wf_0 x) as [x _ IH]; intros s Hs.
  destruct (decide (x = 0%N)) as [->|Hx].
  - by rewrite pretty_N_go_0.
  - rewrite pretty_N_go_step by lia. apply IH; [|done].
    apply N.div_lt; lia.
Qed.

Lemma fmt_d_nonempty (n : Z) : fmt_d n <> "".
Proof.
  unfold fmt_d, pretty, pretty_Z.
  destruct n as [|p|p]; [done| |done].
  unfold pretty, pretty_positive, pretty, pretty_N. case_decide; [done|].
  rewrite pretty_N_go_step by lia. by apply pretty_N_go_nonempty.
Qed.

Section AuditFacts.
Context `{Externals}.

(** One turn of the loop, in closed form. *)
Lemma auditKey_spec (v : audit.vars) (k : publicKey) :
  auditKey v k
  = {| audit.tabWriter := audit.tabWriter v +:+ auditRow k;
       audit.issues := classify k;
       audit.blacklisted := audit.blacklisted v || blacklisted k;
       audit.weak := audit.weak v || isWeakRSA k;
       audit.dsa := audit.dsa v || isDSA k;
       audit.logged := audit.logged v ++ failureLog k |}.
Proof.
  unfold auditKey, auditRow, classify, isWeakRSA, isDSA, failureLog, keyLength.
  destruct (BitLen k) as [n err]; simpl.
  destruct (decide (ssh.KeyType (key k) = ssh.KeyAlgoDSA)) as [Hd|Hd].
  - rewrite (bool_decide_eq_true_2 _ Hd).
    rewrite (bool_decide_eq_false_2 (ssh.KeyType (key k) = ssh.KeyAlgoRSA))
      by (intros E; rewrite Hd in E; discriminate E).
    rewrite !andb_false_r, !orb_true_r, !orb_false_r.
    destruct (blacklisted k), err; simpl; rewrite ?orb_true_r, ?orb_false_r, ?app_nil_r; reflexivity.
  - rewrite (bool_decide_eq_false_2 _ Hd).
    destruct ((n <? 2048) && bool_decide (ssh.KeyType (key k) = ssh.KeyAlgoRSA));
      destruct (blacklisted k), err; simpl;
      rewrite ?orb_true_r, ?orb_false_r, ?app_nil_r; reflexivity.
Qed.

Lemma fold_auditKey_spec (keys : list publicKey) :
  forall v : audit.vars,
    audit.tabWriter (fold_left auditKey keys v) = audit.tabWriter v +:+ tableRows keys
    /\ audit.blacklisted (fold_left auditKey keys v)
       = audit.blacklisted v || existsb blacklisted keys
    /\ audit.dsa (fold_left auditKey keys v) = audit.dsa v || existsb isDSA keys
    /\ audit.weak (fold_left auditKey keys v) = audit.weak v || existsb isWeakRSA keys
    /\ audit.logged (fold_left auditKey keys v) = audit.logged v ++ flat_map failureLog keys.
Proof.
  induction keys as [|k keys IH]; intros v; simpl.
  - by rewrite string_app_nil_r, !orb_false_r, app_nil_r.
  - destruct (IH (auditKey v k)) as (-> & -> & -> & -> & ->).
    rewrite auditKey_spec; simpl.
    by rewrite string_app_assoc, <- !orb_assoc, <- app_assoc.
Qed.

Lemma auditKeys_spec (keys : list publicKey) :
  audit.tabWriter (auditKeys keys) = header +:+ tableRows keys
  /\ audit.blacklisted (auditKeys keys) = existsb blacklisted keys
  /\ audit.dsa (auditKeys keys) = existsb isDSA keys
  /\ audit.weak (auditKeys keys) = existsb isWeakRSA keys
  /\ audit.logged (auditKeys keys) = flat_map failureLog keys.
Proof. apply (fold_auditKey_spec keys auditInit). Qed.

End AuditFacts.

Section AuditTheorems.
Context `{Externals}.

Lemma tableRows_app (l1 l2 : list publicKey) :
  tableRows (l1 ++ l2) = tableRows l1 +:+ tableRows l2.
Proof.
  induction l1 as [|k l1 IH]; [done|].
  simpl. by rewrite IH, string_app_assoc.
Qed.

(** C4: a key that is blacklisted and of the DSA algorithm is classified
    "BLACKLISTED", not "DSA KEY", and that is what its table row says. *)
Theorem blacklisted_overrides_dsa (v : audit.vars) (k : publicKey) :
  blacklisted k = true ->
  ssh.KeyType (key k) = ssh.KeyAlgoDSA ->
  audit.issues (auditKey v k) = "BLACKLISTED"
  /\ audit.issues (auditKey v k) <> "DSA KEY"
  /\ audit.tabWriter (auditKey v k)
     = audit.tabWriter v
       +:+ row (fmt_d (fst (BitLen k))) ssh.KeyAlgoDSA (Fingerprint k) "BLACKLISTED".
Proof.
  intros Hb Hd. rewrite auditKey_spec. simpl.
  unfold auditRow, classify, keyLength. rewrite Hb, Hd. done.
Qed.

(** C5: for an RSA key that is not blacklisted and whose length is
    computed without error, the classification is "WEAK KEY LENGTH" below
    2048 bits and "No known issues" from 2048 bits on: 2048 bits are fine,
    2047 bits are weak. *)
Theorem rsa_length_threshold (v : audit.vars) (k : publicKey) (n : Z) :
  blacklisted k = false ->
  ssh.KeyType (key k) = ssh.KeyAlgoRSA ->
  BitLen k = (n, None) ->
  audit.issues (auditKey v k)
  = (if n <? 2048 then "WEAK KEY LENGTH" else "No known issues")
  /\ (n = 2048 -> audit.issues (auditKey v k) = "No known issues")
  /\ (n = 2047 -> audit.issues (auditKey v k) = "WEAK KEY LENGTH").
Proof.
  intros Hb Hr Hn.
  assert (Hi : audit.issues (auditKey v k)
               = if n <? 2048 then "WEAK KEY LENGTH" else "No known issues").
  { rewrite auditKey_spec. simpl.
    unfold classify, isDSA, isWeakRSA, keyLength. rewrite Hb, Hr, Hn. simpl.
    by rewrite andb_true_r. }
  split; [exact Hi|].
  split; intros ->; exact Hi.
Qed.


(** C8, as the code has it: a key whose length computation fails still
    gets its row, between the rows of the keys before it and the rows of
    the keys after it, which are audited as usual; the length column of
    the row is the decimal numeral of the integer that came with the
    error, never an empty cell; the failure goes to the error log and to
    nothing else. *)
Theorem failed_length_keeps_auditing (before after : list publicKey) (k : publicKey)
    (n : Z) (e : error) :
  BitLen k = (n, Some e) ->
  audit.tabWriter (auditKeys (before ++ k :: after))
  = header +:+ tableRows before
    +:+ row (fmt_d n) (ssh.KeyType (key k)) (Fingerprint k) (classify k)
    +:+ tableRows after
  /\ fmt_d n <> ""
  /\ audit.logged (auditKeys (before ++ k :: after))
     = flat_map failureLog before
       ++ ["Failed to determine key length for " +:+ ssh.KeyType (key k) +:+ " key: " +:+ e]
       ++ flat_map failureLog after.
Proof.
  intros Hn. destruct (auditKeys_spec (before ++ k :: after)) as (-> & _ & _ & _ & ->).
  split; [|split].
  - rewrite tableRows_app. simpl. unfold auditRow, keyLength. rewrite Hn. reflexivity.
  - apply fmt_d_nonempty.
  - rewrite flat_map_app. simpl. unfold failureLog at 2. by rewrite Hn.
Qed.

End AuditTheorems.

Lemma blacklisted_overrides_dsa_witness :
  blacklisted blacklistedDsaKey = true
  /\ ssh.KeyType (key blacklistedDsaKey) = ssh.KeyAlgoDSA
  /\ audit.issues (@auditKey demoExternals auditInit blacklistedDsaKey) = "BLACKLISTED".
Proof.
  split; [reflexivity|]. split; [reflexivity|].
  exact (proj1 (@blacklisted_overrides_dsa demoExternals auditInit blacklistedDsaKey
                  eq_refl eq_refl)).
Defined.

Lemma rsa_length_threshold_witness :
  (blacklisted rsa2048 = false
   /\ ssh.KeyType (key rsa2048) = ssh.KeyAlgoRSA
   /\ @BitLen demoExternals rsa2048 = (2048, None)
   /\ audit.issues (@auditKey demoExternals auditInit rsa2048) = "No known issues")
  /\ (blacklisted rsa2047 = false
      /\ ssh.KeyType (key rsa2047) = ssh.KeyAlgoRSA
      /\ @BitLen demoExternals rsa2047 = (2047, None)
      /\ audit.issues (@auditKey demoExternals auditInit rsa2047) = "WEAK KEY LENGTH").
Proof.
  split; (split; [reflexivity|]; split; [reflexivity|]; split; [reflexivity|]).
  - exact (proj1 (proj2 (@rsa_length_threshold demoExternals auditInit rsa2048 2048
                           eq_refl eq_refl eq_refl)) eq_refl).
  - exact (proj2 (proj2 (@rsa_length_threshold demoExternals auditInit rsa2047 2047
                           eq_refl eq_refl eq_refl)) eq_refl).
Defined.


Lemma failed_length_keeps_auditing_witness :
  @BitLen demoExternals ed25519Key = (0, Some (errors.New "unsupported key type"))
  /\ fmt_d 0 <> ""
  /\ audit.logged (@auditKeys demoExternals ([rsa2047] ++ ed25519Key :: [rsa2048]))
     = ["Failed to determine key length for ssh-ed25519 key: unsupported key type"].
Proof.
  split; [reflexivity|].
  exact (proj2 (@failed_length_keeps_auditing demoExternals [rsa2047] [rsa2048] ed25519Key 0
                  (errors.New "unsupported key type") eq_refl)).
Defined.

(** A key of a type whose length cannot be computed, audited between two
    RSA keys: its row is there and its length cell reads 0; it is not
    empty.  The rows are read as the [tabwriter.Writer] gets them. *)
Lemma failed_length_cell_is_zero :
  snd (@BitLen demoExternals ed25519Key) = Some (errors.New "unsupported key type")
  /\ map cells (textLines (audit.tabWriter (@auditKeys demoExternals [rsa2047; ed25519Key; rsa2048])))
     = [["Bits"; "Type"; "Fingerprint"; "Issues"];
        ["2047"; "ssh-rsa"; "fp:rsa-2047"; "WEAK KEY LENGTH"; ""];
        ["0"; "ssh-ed25519"; "fp:ed-blob"; "No known issues"; ""];
        ["2048"; "ssh-rsa"; "fp:rsa-2048"; "No known issues"; ""]]
  /\ ~ (exists line more,
          map cells (textLines (audit.tabWriter (@auditKeys demoExternals [ed25519Key])))
          = [line; "" :: more]).
Proof.
  split; [reflexivity|]. split; [vm_compute; reflexivity|].
  vm_compute. intros (line & more & E). discriminate E.
Qed.

(** ** The report *)


Lemma runChannel_eq (sched : list schedEvent) :
  runChannel sched = mainSteps 4 (runSchedule (sched ++ [STimer])).
Proof.
  unfold runChannel, runSchedule, completion, mainSteps.
  change [STimer; SMain; SMain; SMain; SMain] with ([STimer] ++ replicate 4 SMain).
  by rewrite app_assoc, fold_left_app.
Qed.


Section ReportTheorems.
Context `{Externals}.


End ReportTheorems.

(** The scenario of the specification: a 1024-bit RSA key, then a
    blacklisted ECDSA key; the client asks for agent forwarding and for a
    terminal.  Both warnings are written, the blacklist warning first. *)
Example weak_and_blacklisted_both_warned :
  @reportHead demoExternals (@markBlacklistedKeys demoExternals
                               [harvested rsa1024Key; harvested weakDebianKey])
    ++ out (runChannel [SRequest agentRequest; SRequest ptyRequest])
  = [Write welcomeMsg;
     Write (Replace
              (header
               +:+ row "1024" "ssh-rsa" "fp:rsa-1024" "WEAK KEY LENGTH"
               +:+ row "256" "ecdsa-sha2-nistp256" "fp:weak-debian" "BLACKLISTED")
              LF (LF +:+ CR) +:+ LF +:+ CR);
     Write blacklistMsg; Write weakMsg; Write agentMsg; Close].
Proof. vm_compute. reflexivity. Qed.

(** ** Cleanup *)

Section ServeFacts.
Context `{Externals}.

(** When the handshake succeeds, the entry of the session is gone once
    [serve] returns. *)
Lemma serve_cleans_up_after_handshake (keys : registry) (c : client) :
  snd (NewServerConn keys c) = inl (meta c) ->
  fst (serve keys c) !! ssh.SessionID (meta c) = None.
Proof.
  unfold serve. destruct (NewServerConn keys c) as [keys' [conn|err]]; simpl; [|done].
  intros [= ->].
  destruct (fold_left _ _ _) as [[reg ks] evs]. simpl. apply lookup_delete_eq.
Qed.

Lemma harvest_is_Some (conn : ssh.ConnMetadata) (ks : list ssh.PublicKey) :
  forall keys : registry,
    is_Some (keys !! ssh.SessionID conn) ->
    is_Some (harvest keys conn ks !! ssh.SessionID conn).
Proof.
  induction ks as [|k ks IH]; intros keys Hk; [done|].
  change (harvest keys conn (k :: ks))
    with (harvest (fst (publicKeyCallback keys conn k)) conn ks).
  apply IH. simpl. rewrite lookup_insert_eq. by eexists.
Qed.

Lemma harvest_lookup (keys : registry) (conn : ssh.ConnMetadata)
    (k : ssh.PublicKey) (ks : list ssh.PublicKey) :
  harvest keys conn (k :: ks) !! ssh.SessionID conn
  = Some (sessionKeys keys (ssh.SessionID conn) ++ map harvested (k :: ks)).
Proof.
  pose proof (harvest_sessionKeys conn (k :: ks) keys) as Hs.
  destruct (harvest_is_Some conn ks (fst (publicKeyCallback keys conn k))) as [l Hl].
  { simpl. rewrite lookup_insert_eq. by eexists. }
  change (harvest (fst (publicKeyCallback keys conn k)) conn ks)
    with (harvest keys conn (k :: ks)) in Hl.
  unfold sessionKeys at 1 in Hs. rewrite Hl in Hs. simpl in Hs. by rewrite Hl, Hs.
Qed.

(** When the client offers keys and the handshake then fails, [serve]
    returns before its deferred cleanup is set up: the entry stays. *)
Lemma serve_keeps_entry_on_failed_handshake (keys : registry) (conn : ssh.ConnMetadata)
    (k : ssh.PublicKey) (ks : list ssh.PublicKey) (err : error) (cs : list NewChannel) :
  fst (serve keys {| meta := conn; attempts := map OfferKey (k :: ks);
                     gaveUp := err; chans := cs |})
    !! ssh.SessionID conn
  = Some (sessionKeys keys (ssh.SessionID conn) ++ map harvested (k :: ks)).
Proof.
  unfold serve, NewServerConn. cbn [meta attempts chans gaveUp].
  rewrite <- (app_nil_r (map OfferKey (k :: ks))), serverAuthenticate_offers.
  cbn [serverAuthenticate fst]. apply harvest_lookup.
Qed.

(** A client that offers [ks], falls back to keyboard-interactive and
    opens one session: the report is made of the offered keys in the order
    of the offers, and the entry is removed at the end. *)
Lemma serve_reports_offers (keys : registry) (conn : ssh.ConnMetadata)
    (ks : list ssh.PublicKey) (answer : ssh.Challenge -> list string * option error)
    (err : error) (sch : list schedEvent) :
  keys !! ssh.SessionID conn = None ->
  let marked := markBlacklistedKeys (map harvested ks) in
  serve keys {| meta := conn;
                attempts := map OfferKey ks ++ [KeyboardInteractive answer];
                gaveUp := err;
                chans := [{| ChannelType := "session"; AcceptError := None; sched := sch |}] |}
  = (delete (ssh.SessionID conn) (harvest keys conn ks),
     map LogError (flat_map failureLog marked)
       ++ [Session (reportHead marked ++ out (runChannel sch)) (events (runChannel sch));
           ConnClosed]).
Proof.
  intros Hfresh marked.
  assert (Hsk : sessionKeys (harvest keys conn ks) (ssh.SessionID conn) = map harvested ks).
  { rewrite harvest_sessionKeys. unfold sessionKeys. by rewrite Hfresh. }
  unfold serve, NewServerConn. cbn [meta attempts chans gaveUp].
  rewrite serverAuthenticate_offers. cbn [serverAuthenticate keyboardInteractiveCallback snd].
  cbn [fold_left serveChannel ChannelType AcceptError sched].
  rewrite Hsk. fold marked.
  destruct (auditKeys_spec marked) as (_ & _ & _ & _ & Hlog).
  rewrite decide_False by (intros E; by apply E).
  rewrite Hlog. cbn [app]. rewrite <- app_assoc. cbn [app].
  f_equal. apply map_eq. intros sid.
  destruct (decide (sid = ssh.SessionID conn)) as [->|Hne].
  - by rewrite !lookup_delete_eq.
  - by rewrite !lookup_delete_ne, lookup_alter_ne.
Qed.

End ServeFacts.

(** C2 fails on the code: a client offers one key and drops the
    connection before keyboard-interactive; the handshake fails, [serve]
    logs it and returns, and the key is still in the registry under the
    session identity.  The same client, once it completes the handshake,
    leaves nothing behind. *)
Theorem failed_handshake_leaves_entry :
  @serve demoExternals ∅ droppingClient
  = ({["session-1" := [harvested rsaKey]]},
     [LogWarn "Failed to handshake: EOF"])
  /\ fst (@serve demoExternals ∅ droppingClient) !! "session-1" = Some [harvested rsaKey]
  /\ fst (@serve demoExternals ∅ patientClient) !! "session-1" = None.
Proof.
  split; [|split].
  - unfold serve, NewServerConn. simpl. reflexivity.
  - exact (@serve_keeps_entry_on_failed_handshake demoExternals ∅ aliceConn rsaKey [] "EOF" []).
  - by apply @serve_cleans_up_after_handshake.
Qed.

(** ** Checks of the model on small inputs *)

Lemma listener_runSchedule (reqs : list ssh.Request) :
  listener chanInit reqs = runSchedule (map SRequest reqs).
Proof.
  unfold listener, runSchedule. generalize chanInit.
  induction reqs as [|req reqs IH]; intros st; [done|apply IH].
Qed.

Example listener_env_then_shell :
  events (listener chanInit [envRequest; shellRequest])
  = [Received envRequest; Replied envRequest false;
     Received shellRequest; Unlocked; Replied shellRequest true].
Proof. reflexivity. Qed.

Example Replace_line_feeds :
  Replace ("a" +:+ LF +:+ LF +:+ "b" +:+ LF) LF (LF +:+ CR)
  = "a" +:+ LF +:+ CR +:+ LF +:+ CR +:+ "b" +:+ LF +:+ CR.
Proof. reflexivity. Qed.

Example Replace_longer_pattern : Replace "abababa" "aba" "x" = "xbx".
Proof. reflexivity. Qed.

(** ** The registry under several connections *)

Lemma callbacks_snoc (keys : registry) (calls : list (ssh.ConnMetadata * ssh.PublicKey))
    (call : ssh.ConnMetadata * ssh.PublicKey) :
  callbacks keys (calls ++ [call])
  = fst (publicKeyCallback (callbacks keys calls) (fst call) (snd call)).
Proof. unfold callbacks. by rewrite fold_left_app. Qed.

(** X1: when the callbacks of several connections are let in in any
    order, the entry of each session identity grows by exactly the keys
    offered on that identity, in the order of their offers; the offers of
    other sessions neither enter it nor reorder it. *)
Theorem callbacks_keep_sessions_apart (keys : registry)
    (calls : list (ssh.ConnMetadata * ssh.PublicKey)) (sid : string) :
  sessionKeys (callbacks keys calls) sid
  = sessionKeys keys sid ++ map harvested (offeredOn sid calls).
Proof.
  induction calls as [|[conn k] calls IH] using rev_ind.
  - by rewrite app_nil_r.
  - rewrite callbacks_snoc. unfold offeredOn in *. rewrite List.filter_app, !map_app.
    cbn [fst snd publicKeyCallback List.filter].
    destruct (decide (ssh.SessionID conn = sid)) as [<-|Hne].
    + rewrite sessionKeys_insert, IH, bool_decide_eq_true_2 by done.
      by rewrite app_assoc.
    + rewrite sessionKeys_insert_ne, IH, bool_decide_eq_false_2 by done.
      by rewrite app_nil_r.
Qed.

(** ** Who gets in *)

Lemma serverAuthenticate_spec (conn : ssh.ConnMetadata) (attempts : list authAttempt) :
  forall keys : registry,
    serverAuthenticate keys conn attempts
    = (harvest keys conn (offersBeforeInteractive attempts),
       map (fun k => KeyDenied k denial) (offersBeforeInteractive attempts)
         ++ (if existsb isInteractive attempts
             then [InteractiveAccepted [] (None, None)] else []),
       existsb isInteractive attempts).
Proof.
  induction attempts as [|[k|answer] rest IH]; intros keys; [done| |].
  - cbn [serverAuthenticate publicKeyCallback snd]. rewrite IH. reflexivity.
  - reflexivity.
Qed.

(** X2: whatever the client tries, authentication succeeds exactly when it
    tries keyboard-interactive; no key offer is ever accepted, the only
    accepted attempt is the first keyboard-interactive one, and the keys
    recorded are those offered before it: a key offered after it is never
    seen by the callback. *)
Theorem only_interactive_admits (keys : registry) (conn : ssh.ConnMetadata)
    (attempts : list authAttempt) :
  snd (serverAuthenticate keys conn attempts) = existsb isInteractive attempts
  /\ List.filter isAccepted (snd (fst (serverAuthenticate keys conn attempts)))
     = (if existsb isInteractive attempts then [InteractiveAccepted [] (None, None)] else [])
  /\ fst (fst (serverAuthenticate keys conn attempts))
     = harvest keys conn (offersBeforeInteractive attempts).
Proof.
  rewrite serverAuthenticate_spec. cbn [fst snd]. split; [done|]. split; [|done].
  rewrite List.filter_app.
  assert (Hd : forall ks : list ssh.PublicKey,
             List.filter isAccepted (map (fun k => KeyDenied k denial) ks) = []).
  { induction ks as [|k ks IHks]; [done|exact IHks]. }
  rewrite Hd. by destruct (existsb isInteractive attempts).
Qed.

(** ** One connection among others *)

Section ServeTheorems.
Context `{Externals}.

Lemma markBlacklistedKeys_idem (keys : list publicKey) :
  markBlacklistedKeys (markBlacklistedKeys keys) = markBlacklistedKeys keys.
Proof. unfold markBlacklistedKeys. rewrite map_map. reflexivity. Qed.

Lemma NewServerConn_spec (keys : registry) (c : client) :
  NewServerConn keys c
  = (harvest keys (meta c) (offersBeforeInteractive (attempts c)),
     if existsb isInteractive (attempts c) then inl (meta c) else inr (gaveUp c)).
Proof. unfold NewServerConn. by rewrite serverAuthenticate_spec. Qed.

(** The loop over the channels touches the registry at the session of the
    connection only, and every report is on the marked keys. *)
Lemma fold_serveChannel_spec (sid : string) (ks : list publicKey) (cs : list NewChannel) :
  forall (reg : registry) (keys : list publicKey) (evs : list serveEvent),
    markBlacklistedKeys keys = markBlacklistedKeys ks ->
    exists reg' keys',
      fold_left (serveChannel sid) cs (reg, keys, evs)
      = (reg', keys', evs ++ flat_map (channelEvents (markBlacklistedKeys ks)) cs)
      /\ (forall sid', sid' <> sid -> reg' !! sid' = reg !! sid').
Proof.
  induction cs as [|n cs IH]; intros reg keys evs Hk.
  - exists reg, keys. simpl. by rewrite app_nil_r.
  - cbn [fold_left flat_map]. unfold serveChannel at 2, channelEvents at 1.
    destruct (decide (ChannelType n <> "session")) as [Hty|Hty].
    + destruct (IH reg keys (evs ++ [Rejected ssh.UnknownChannelType "unknown channel type"]) Hk)
        as (reg' & keys' & -> & Hreg).
      exists reg', keys'. by rewrite <- app_assoc.
    + destruct (AcceptError n) as [e|].
      * destruct (IH reg keys (evs ++ [LogWarn ("Could not accept channel: " +:+ e)]) Hk)
          as (reg' & keys' & -> & Hreg).
        exists reg', keys'. by rewrite <- app_assoc.
      * destruct (auditKeys_spec (markBlacklistedKeys keys)) as (_ & _ & _ & _ & Hlog).
        rewrite Hlog, Hk.
        edestruct (IH (alter (fun _ => markBlacklistedKeys ks) sid reg)
                      (markBlacklistedKeys ks)) as (reg' & keys' & -> & Hreg).
        { apply markBlacklistedKeys_idem. }
        exists reg', keys'. split; [by rewrite <- !app_assoc|].
        intros sid' Hne. rewrite Hreg by done. by rewrite lookup_alter_ne.
Qed.

(** X3: a connection leaves the entries of all other session identities
    as they were, whether its handshake fails or succeeds and whatever
    channels it opens. *)
Theorem serve_leaves_other_sessions (keys : registry) (c : client) (sid : string) :
  sid <> ssh.SessionID (meta c) ->
  fst (serve keys c) !! sid = keys !! sid.
Proof.
  intros Hne. unfold serve. rewrite NewServerConn_spec.
  destruct (existsb isInteractive (attempts c)).
  - edestruct (fold_serveChannel_spec (ssh.SessionID (meta c))
                 (sessionKeys (harvest keys (meta c) (offersBeforeInteractive (attempts c)))
                    (ssh.SessionID (meta c))) (chans c)) as (reg' & keys' & -> & Hreg);
      [reflexivity|].
    cbn [fst]. rewrite lookup_delete_ne by done. rewrite Hreg by done.
    by apply harvest_other.
  - cbn [fst]. by apply harvest_other.
Qed.

(** X4: when the client gets to keyboard-interactive, then, whatever keys
    it has offered and whatever channels it opens, the entry of its
    session is gone when [serve] returns, and closing the connection is
    the last thing [serve] does. *)
Theorem serve_removes_entry_after_handshake (keys : registry) (c : client) :
  existsb isInteractive (attempts c) = true ->
  fst (serve keys c) !! ssh.SessionID (meta c) = None
  /\ last (snd (serve keys c)) = Some ConnClosed.
Proof.
  intros Hok. unfold serve. rewrite NewServerConn_spec, Hok.
  destruct (fold_left _ _ _) as [[reg ks] evs]. cbn [fst snd].
  split; [apply lookup_delete_eq|apply last_snoc].
Qed.

(** X5: when the client never gets to keyboard-interactive, [serve] logs
    one warning, with the error of the handshake, and returns: it serves
    none of the channels and does not close the connection itself. *)
Theorem serve_failed_handshake_serves_nothing (keys : registry) (c : client) :
  existsb isInteractive (attempts c) = false ->
  snd (serve keys c) = [LogWarn ("Failed to handshake: " +:+ gaveUp c)].
Proof.
  intros Hko. unfold serve. by rewrite NewServerConn_spec, Hko.
Qed.

(** X6: after a handshake that succeeds, [serve] handles the channels one
    by one in their order and then closes the connection: a channel that
    is not of type "session" is rejected as of unknown type, a channel
    whose accept fails is logged, and every other channel gets the report
    on the same keys, those of the session with their blacklist marks; a
    rejected or failed channel changes nothing for the channels after
    it. *)
Theorem serve_channel_by_channel (keys : registry) (c : client) :
  existsb isInteractive (attempts c) = true ->
  snd (serve keys c)
  = flat_map
      (channelEvents
         (markBlacklistedKeys
            (sessionKeys keys (ssh.SessionID (meta c))
               ++ map harvested (offersBeforeInteractive (attempts c)))))
      (chans c)
    ++ [ConnClosed].
Proof.
  intros Hok. unfold serve. rewrite NewServerConn_spec, Hok.
  edestruct (fold_serveChannel_spec (ssh.SessionID (meta c))
               (sessionKeys (harvest keys (meta c) (offersBeforeInteractive (attempts c)))
                  (ssh.SessionID (meta c))) (chans c)) as (reg' & keys' & -> & _);
    [reflexivity|].
  cbn [snd app]. by rewrite harvest_sessionKeys.
Qed.

End ServeTheorems.

Lemma serve_leaves_other_sessions_witness :
  "session-2" <> ssh.SessionID (meta patientClient)
  /\ fst (@serve demoExternals {["session-2" := [harvested dsaKey]]} patientClient)
       !! "session-2"
     = ({["session-2" := [harvested dsaKey]]} : registry) !! "session-2".
Proof.
  split; [discriminate|].
  apply (@serve_leaves_other_sessions demoExternals). discriminate.
Defined.

Lemma serve_removes_entry_after_handshake_witness :
  existsb isInteractive (attempts busyClient) = true
  /\ fst (@serve demoExternals ∅ busyClient) !! ssh.SessionID (meta busyClient) = None.
Proof.
  split; [reflexivity|].
  exact (proj1 (@serve_removes_entry_after_handshake demoExternals ∅ busyClient eq_refl)).
Defined.

Lemma serve_failed_handshake_serves_nothing_witness :
  existsb isInteractive (attempts droppingClient) = false
  /\ snd (@serve demoExternals ∅ droppingClient) = [LogWarn "Failed to handshake: EOF"].
Proof.
  split; [reflexivity|].
  exact (@serve_failed_handshake_serves_nothing demoExternals ∅ droppingClient eq_refl).
Defined.

Lemma serve_channel_by_channel_witness :
  existsb isInteractive (attempts busyClient) = true
  /\ take 2 (snd (@serve demoExternals ∅ busyClient))
     = [Rejected ssh.UnknownChannelType "unknown channel type";
        LogWarn "Could not accept channel: EOF"]
  /\ length (snd (@serve demoExternals ∅ busyClient)) = 4%nat.
Proof.
  split; [reflexivity|].
  rewrite (@serve_channel_by_channel demoExternals ∅ busyClient eq_refl).
  split; reflexivity.
Defined.

(** ** The flags of a channel and the end of the report *)

(** X7: under every schedule the two flags say what the listener has
    received: [agentFwd] is set exactly when an agent-forwarding request
    has come in, [x11] exactly when an X11 request has; nothing else sets
    a flag and nothing resets one. *)
Theorem flags_follow_requests (sched : list schedEvent) :
  agentFwd (runSchedule sched) = existsb isAgentReq sched
  /\ x11 (runSchedule sched) = existsb isX11Req sched.
Proof.
  destruct (chanInv_run sched) as [_ _ _ _ _ _ Ha Hx _ _]. by split.
Qed.

Lemma schedStep_keeps_pc (st : chanState) (e : schedEvent) :
  isMainStep e = false -> pc (schedStep st e) = pc st.
Proof.
  destruct e as [req| |]; [| |done]; intros _; simpl.
  - unfold handleRequest.
    destruct (switchType_cases (emit (Received req) st) req)
      as [(_ & _ & _ & ->)|[(_ & _ & _ & ->)|[(_ & _ & _ & ->)|(_ & _ & _ & ->)]]];
      destruct st as [a x l t f p o evs]; simpl;
      destruct t, (ssh.WantReply req); reflexivity.
  - unfold timerFires. destruct st as [a x l t f p o evs]; simpl. by destruct t.
Qed.

Lemma pc_without_main (sched : list schedEvent) :
  existsb isMainStep sched = false -> pc (runSchedule sched) = AtLock.
Proof.
  induction sched as [|e sched IH] using rev_ind; [done|].
  rewrite existsb_snoc, runSchedule_snoc. intros [Hs He]%orb_false_elim.
  by rewrite schedStep_keeps_pc, IH.
Qed.

Lemma mainSteps_from_lock (st : chanState) :
  pc st = AtLock -> reqLock st = false ->
  pc (mainSteps 4 st) = Returned (agentFwd st) (x11 st).
Proof.
  destruct st as [a x l t f p o evs]; simpl. intros -> ->. reflexivity.
Qed.

(** X8: when the reporting goroutine gets to run only after the listener
    has taken the requests of the schedule, the report says what was
    asked for: the agent-forwarding warning is written exactly when an
    agent-forwarding request is among them and the X11 warning exactly
    when an X11 request is, wherever the "pty-req" or "shell" request
    stands among them. *)
Theorem earlier_requests_are_reported (sched : list schedEvent) :
  existsb isMainStep sched = false ->
  pc (runChannel sched) = Returned (existsb isAgentReq sched) (existsb isX11Req sched)
  /\ out (runChannel sched)
     = opt (existsb isAgentReq sched) agentMsg
       ++ opt (existsb isX11Req sched) x11Msg ++ [Close].
Proof.
  intros Hno.
  destruct (chanInv_run (sched ++ [STimer])) as [_ _ _ Hl _ _ Ha Hx _ _].
  destruct (chanInv_run (sched ++ completion)) as [_ _ _ _ _ Ho _ _ _ _].
  assert (Hpc : pc (runSchedule (sched ++ [STimer])) = AtLock).
  { apply pc_without_main. rewrite existsb_snoc, Hno. reflexivity. }
  rewrite Hpc, existsb_snoc in Hl. simpl in Hl. rewrite orb_true_r in Hl.
  rewrite existsb_snoc in Ha, Hx. simpl in Ha, Hx. rewrite orb_false_r in Ha, Hx.
  assert (Hret : pc (runChannel sched)
                 = Returned (existsb isAgentReq sched) (existsb isX11Req sched)).
  { rewrite runChannel_eq, mainSteps_from_lock by done. by rewrite Ha, Hx. }
  split; [exact Hret|]. unfold runChannel in *. by rewrite Ho, Hret.
Qed.




Lemma earlier_requests_are_reported_witness :
  existsb isMainStep [SRequest ptyRequest; SRequest agentRequest] = false
  /\ pc (runChannel [SRequest ptyRequest; SRequest agentRequest]) = Returned true false.
Proof.
  split; [reflexivity|].
  exact (proj1 (earlier_requests_are_reported
                  [SRequest ptyRequest; SRequest agentRequest] eq_refl)).
Defined.

(** X10: as long as neither a "shell" or "pty-req" request has come in
    nor the timer has gone off, the reporting goroutine stays in
    [reqLock.Lock()] however often it is scheduled: the mutex is held, the
    timer is armed, and nothing has been written after the wait. *)
Theorem report_waits_for_trigger (sched : list schedEvent) :
  existsb isTrigger sched = false ->
  pc (runSchedule sched) = AtLock
  /\ reqLock (runSchedule sched) = true
  /\ timeout (runSchedule sched) = Armed
  /\ out (runSchedule sched) = [].
Proof.
  intros Hno. destruct (chanInv_run sched) as [_ _ Ht Hl Hp Ho _ _ _ _].
  rewrite Hno in Hl. rewrite (Hp Hno) in Hl, Ho.
  repeat split; [by apply Hp|exact Hl|by apply Ht|exact Ho].
Qed.

Lemma report_waits_for_trigger_witness :
  existsb isTrigger [SRequest agentRequest; SMain; SRequest x11Request; SMain; SMain] = false
  /\ pc (runSchedule [SRequest agentRequest; SMain; SRequest x11Request; SMain; SMain])
     = AtLock.
Proof.
  split; [reflexivity|].
  exact (proj1 (report_waits_for_trigger
                  [SRequest agentRequest; SMain; SRequest x11Request; SMain; SMain] eq_refl)).
Defined.

(** X11: under every schedule, what has been written after the wait is
    an initial part of: the agent-forwarding warning or nothing, the X11
    warning or nothing, the close.  So each warning is written at most
    once, the agent-forwarding warning never after the X11 warning, and
    nothing after the channel is closed. *)
Theorem writes_after_wait_in_order (sched : list schedEvent) :
  exists (a x : bool) (rest : list chanOutput),
    opt a agentMsg ++ opt x x11Msg ++ [Close] = out (runSchedule sched) ++ rest.
Proof.
  destruct (chanInv_run sched) as [_ _ _ _ _ Ho _ _ _ _]. rewrite Ho.
  destruct (pc (runSchedule sched)) as [| |a|a x|a x]; simpl.
  - by exists false, false, [Close].
  - by exists false, false, [Close].
  - exists a, false, [Close]. reflexivity.
  - exists a, x, [Close]. by rewrite <- app_assoc.
  - exists a, x, []. by rewrite app_nil_r.
Qed.

(** ** Line endings *)

Lemma Replace_LF_cons (c : ascii) (s new : string) :
  Replace (String c s) LF new
  = if Ascii.eqb c (ascii_of_nat 10) then new +:+ Replace s LF new
    else String c (Replace s LF new).
Proof.
  unfold Replace, LF. cbn [Replace_go String.prefix String.length Nat.sub].
  destruct (Ascii.eqb_spec c (ascii_of_nat 10)) as [->|Hne].
  - destruct (ascii_dec (ascii_of_nat 10) (ascii_of_nat 10)) as [_|Hn];
      [by destruct s|by destruct Hn].
  - destruct (ascii_dec (ascii_of_nat 10) c) as [E|_]; [by destruct Hne|done].
Qed.

Lemma lfThenCr_Replace (s tail : string) :
  lfThenCr (Replace s LF (LF +:+ CR) +:+ tail) = lfThenCr tail.
Proof.
  induction s as [|c s IH]; [done|].
  rewrite Replace_LF_cons. destruct (Ascii.eqb c (ascii_of_nat 10)) eqn:E.
  - rewrite string_app_assoc.
    change (lfThenCr (String (ascii_of_nat 10)
                        (String (ascii_of_nat 13) (Replace s LF (LF +:+ CR) +:+ tail)))
            = lfThenCr tail).
    cbn [lfThenCr]. by rewrite Ascii.eqb_refl, IH.
  - change (lfThenCr (String c (Replace s LF (LF +:+ CR) +:+ tail)) = lfThenCr tail).
    cbn [lfThenCr]. by rewrite E, IH.
Qed.

Lemma lfThenCr_Replace_nil (s : string) : lfThenCr (Replace s LF (LF +:+ CR)) = true.
Proof. by rewrite <- (string_app_nil_r (Replace _ _ _)), lfThenCr_Replace. Qed.

Section LineEndings.
Context `{Externals}.

(** X12: in everything the server writes to a channel, for every list of
    keys, every table the tabwriter makes of them and every schedule, each
    line feed is followed by a carriage return. *)
Theorem written_lines_end_lf_cr (keys : list publicKey) (sched : list schedEvent) :
  lineEndingsOk (reportHead keys ++ out (runSchedule sched)) = true.
Proof.
  unfold lineEndingsOk. rewrite forallb_app. apply andb_true_intro. split.
  - unfold reportHead. cbn [forallb app].
    rewrite lfThenCr_Replace. unfold welcomeMsg. rewrite lfThenCr_Replace_nil.
    cbn [andb lfThenCr LF CR Ascii.eqb]. rewrite !forallb_app.
    unfold blacklistMsg, dsaMsg, weakMsg.
    destruct (audit.blacklisted _), (audit.dsa _), (audit.weak _); cbn [forallb andb];
      rewrite ?lfThenCr_Replace_nil; reflexivity.
  - destruct (chanInv_run sched) as [_ _ _ _ _ Ho _ _ _ _]. rewrite Ho.
    unfold written, opt, agentMsg, x11Msg.
    destruct (pc (runSchedule sched)) as [| |a|a x|a x]; try reflexivity.
    + by destruct a; cbn [forallb app]; rewrite ?lfThenCr_Replace_nil.
    + by destruct a, x; cbn [forallb app]; rewrite ?lfThenCr_Replace_nil.
    + by destruct a, x; cbn [forallb app]; rewrite ?lfThenCr_Replace_nil.
Qed.

End LineEndings.

(** ** The classification *)

Section Classification.
Context `{Externals}.

(** X13: the classification of a key by the loop body follows the
    priority blacklisted, then DSA, then RSA shorter than 2048 bits, then
    nothing to report, and it is decided by the key alone: what the loop
    found for the keys before it does not enter. *)
Theorem classification_by_priority (v : audit.vars) (k : publicKey) :
  audit.issues (auditKey v k)
  = (if blacklisted k then "BLACKLISTED"
     else if bool_decide (ssh.KeyType (key k) = ssh.KeyAlgoDSA) then "DSA KEY"
     else if (fst (BitLen k) <? 2048) && bool_decide (ssh.KeyType (key k) = ssh.KeyAlgoRSA)
          then "WEAK KEY LENGTH"
     else "No known issues").
Proof. by rewrite auditKey_spec. Qed.

(** X14: a key that is not blacklisted and is neither a DSA nor an RSA key
    is passed with "No known issues" whatever its length, even a length of
    0 that came with an error, and it sets none of the flags of the
    session. *)
Theorem other_key_types_pass (v : audit.vars) (k : publicKey) :
  blacklisted k = false ->
  ssh.KeyType (key k) <> ssh.KeyAlgoDSA ->
  ssh.KeyType (key k) <> ssh.KeyAlgoRSA ->
  audit.issues (auditKey v k) = "No known issues"
  /\ audit.blacklisted (auditKey v k) = audit.blacklisted v
  /\ audit.dsa (auditKey v k) = audit.dsa v
  /\ audit.weak (auditKey v k) = audit.weak v.
Proof.
  intros Hb Hd Hr. rewrite auditKey_spec. cbn.
  unfold classify, isDSA, isWeakRSA.
  rewrite Hb, !bool_decide_eq_false_2 by done.
  by rewrite andb_false_r, !orb_false_r.
Qed.

End Classification.

Lemma other_key_types_pass_witness :
  blacklisted ed25519Key = false
  /\ ssh.KeyType (key ed25519Key) <> ssh.KeyAlgoDSA
  /\ ssh.KeyType (key ed25519Key) <> ssh.KeyAlgoRSA
  /\ fst (@BitLen demoExternals ed25519Key) = 0
  /\ audit.issues (@auditKey demoExternals auditInit ed25519Key) = "No known issues".
Proof.
  split; [reflexivity|]. split; [discriminate|]. split; [discriminate|].
  split; [reflexivity|].
  apply (@other_key_types_pass demoExternals auditInit ed25519Key);
    [reflexivity|discriminate|discriminate].
Defined.
